(** Verification of pkg/standalone (standalone.go) of the actions CLI:
    the parallel initialisation orchestrator [Init], the two container
    launchers, and the binary installer pipeline.

    External collaborators (the container runtime, the network, the file
    system, the environment) are oracles collected in the record [env]; the
    code of this package is embedded on top of them.  I/O stages run in a
    small trace-and-error monad [M]; the concurrency of [Init] is a
    small-step relation over task phases, the unbuffered [errorChan], the
    closer goroutine and the draining loop. *)

From Stdlib Require Import ZArith Ascii.
From stdpp Require Import base list strings pretty relations.

Open Scope string_scope.

(* ------------------------------------------------------------------ *)
(** * Go errors *)

(** syscall errno values; only those the code can distinguish matter. *)
Inductive errno :=
| EEXIST | ENOTEMPTY | ENOENT | EACCES | ENOTDIR | ELOOP
| ENAMETOOLONG | EOVERFLOW | ENOMEM | EFAULT | EBADF | EIO
| EOtherErrno (n : Z).

Definition errno_msg (e : errno) : string :=
  match e with
  | EEXIST => "file exists"
  | ENOTEMPTY => "directory not empty"
  | ENOENT => "no such file or directory"
  | EACCES => "permission denied"
  | ENOTDIR => "not a directory"
  | ELOOP => "too many levels of symbolic links"
  | ENAMETOOLONG => "file name too long"
  | EOVERFLOW => "value too large for defined data type"
  | ENOMEM => "cannot allocate memory"
  | EFAULT => "bad address"
  | EBADF => "bad file descriptor"
  | EIO => "input/output error"
  | EOtherErrno n => "errno " +:+ pretty n
  end.

(** The errors the package sees: [*exec.ExitError] (non-zero exit status),
    [*exec.Error] (the process could not be spawned), [*os.PathError],
    errors built by [fmt.Errorf], and network errors of [http.Get]. *)
Inductive error :=
| ExitError (code : Z)
| ExecError (name : string) (inner : string)
| PathError (op : string) (path : string) (err : errno)
| Errorf (msg : string)
| NetError (msg : string).

(** The double-quote character, as written by [%q]. *)
Definition dq : string := String (ascii_of_nat 34) EmptyString.

(** [err.Error()] *)
Definition Error (e : error) : string :=
  match e with
  | ExitError c => "exit status " +:+ pretty c
  | ExecError name inner => "exec: " +:+ dq +:+ name +:+ dq +:+ ": " +:+ inner
  | PathError op p en => op +:+ " " +:+ p +:+ ": " +:+ errno_msg en
  | Errorf msg => msg
  | NetError msg => msg
  end.

(* ------------------------------------------------------------------ *)
(** * String helpers of the Go standard library used by the package *)

(** [strings.Split(s, sep)] for a one-character separator. *)
Fixpoint split_on (sep : ascii) (s : string) : list string :=
  match s with
  | EmptyString => [EmptyString]
  | String c s' =>
      let rest := split_on sep s' in
      if ascii_dec c sep then EmptyString :: rest
      else match rest with
           | t :: r => String c t :: r
           | [] => [String c EmptyString]
           end
  end.

Definition slash : ascii := "/"%char.

(** [tokens[len(tokens)-1]]; [strings.Split] never returns an empty slice. *)
Definition last_token (tokens : list string) : string :=
  default EmptyString (last tokens).

(** [strings.ToLower] on ASCII strings (Go's fast path).  Characters
    outside the ASCII range are left unchanged here, whereas Go also lowers
    them; the properties below only use it on ASCII text. *)
Definition ascii_lower (c : ascii) : ascii :=
  let n := nat_of_ascii c in
  if (65 <=? n)%nat && (n <=? 90)%nat then ascii_of_nat (n + 32) else c.

Fixpoint ToLower (s : string) : string :=
  match s with
  | EmptyString => EmptyString
  | String c s' => String (ascii_lower c) (ToLower s')
  end.

(** [strings.Contains(s, substr)]. *)
Fixpoint Contains (s substr : string) : bool :=
  String.prefix substr s ||
  match s with
  | EmptyString => false
  | String _ s' => Contains s' substr
  end.

(** The element loop of [path.Clean]: drop empty and [.] elements, let
    [..] remove the element before it, and drop a [..] at the root. The
    kept elements are on [stack], last first. *)
Fixpoint clean_elems (stack : list string) (rooted : bool) (els : list string)
  : list string :=
  match els with
  | [] => stack
  | e :: els' =>
      if String.eqb e "" || String.eqb e "." then clean_elems stack rooted els'
      else if String.eqb e ".." then
        match stack with
        | top :: stack' =>
            if String.eqb top ".." then clean_elems (".." :: stack) rooted els'
            else clean_elems stack' rooted els'
        | [] =>
            if rooted then clean_elems [] rooted els'
            else clean_elems [".."] rooted els'
        end
      else clean_elems (e :: stack) rooted els'
  end.

(** [path.Clean(p)]. *)
Definition path_Clean (p : string) : string :=
  if String.eqb p "" then "."
  else
    let rooted := String.prefix "/" p in
    let body := String.concat "/" (rev (clean_elems [] rooted (split_on slash p))) in
    let r := if rooted then "/" +:+ body else body in
    if String.eqb r "" then "." else r.

(** [path.Join(a, b)]: [Clean] of the elements from the first non-empty
    one on, joined with a slash; [""] when both are empty. *)
Definition path_Join (a b : string) : string :=
  if negb (String.eqb a "") then path_Clean (a +:+ "/" +:+ b)
  else if negb (String.eqb b "") then path_Clean b
  else "".

Fixpoint strip_trailing_slashes_rev (r : list ascii) : list ascii :=
  match r with
  | c :: r' => if ascii_dec c slash then strip_trailing_slashes_rev r' else r
  | [] => []
  end.

(** [filepath.Base(p)] with the Unix separator. *)
Definition filepath_Base (p : string) : string :=
  if String.eqb p "" then "."
  else
    let q := String.string_of_list_ascii
               (rev (strip_trailing_slashes_rev (rev (String.list_ascii_of_string p)))) in
    if String.eqb q "" then "/" else last_token (split_on slash q).

(* ------------------------------------------------------------------ *)
(** * The environment: oracles for everything outside the package *)

Inductive result (A : Type) :=
| Ok (a : A)
| Err (e : error).
Arguments Ok {A} a.
Arguments Err {A} e.

(** The failures [stat(2)] can report (POSIX and Linux man pages). *)
Inductive stat_failure :=
| SENOENT | SEACCES | SENOTDIR | SELOOP | SENAMETOOLONG | SEOVERFLOW
| SENOMEM | SEFAULT | SEBADF | SEIO.

Definition errno_of_stat (f : stat_failure) : errno :=
  match f with
  | SENOENT => ENOENT | SEACCES => EACCES | SENOTDIR => ENOTDIR
  | SELOOP => ELOOP | SENAMETOOLONG => ENAMETOOLONG
  | SEOVERFLOW => EOVERFLOW | SENOMEM => ENOMEM | SEFAULT => EFAULT
  | SEBADF => EBADF | SEIO => EIO
  end.

(** An entry of a zip archive ([*zip.File]): its name, [file.Mode()], its
    uncompressed contents, and the error [file.Open()] reports, if any. *)
Record zip_entry := {
  zname : string;
  zmode : Z;
  zdata : list Byte.byte;
  zopen_err : option error
}.

Record env := {
  goos : string;                                   (* runtime.GOOS *)
  goarch : string;                                 (* runtime.GOARCH *)
  user_current : result string;                    (* user.Current().HomeDir *)
  mkdir_all : string -> Z -> option error;         (* os.MkdirAll *)
  run_cmd : string -> list string -> option error; (* exec.Command(..).Run() *)
  stat : string -> option stat_failure;            (* os.Stat; None: the file exists *)
  http_get : string -> result (list Byte.byte);    (* http.Get, body *)
  create : string -> option error;                 (* os.Create *)
  open_file : string -> Z -> option error;         (* os.OpenFile(O_WRONLY|O_CREATE|O_TRUNC) *)
  copy_to : string -> list Byte.byte -> option error; (* io.Copy into that file *)
  zip_open : string -> result (list zip_entry);    (* zip.OpenReader(..).File *)
  getenv : string -> string;                       (* os.Getenv *)
  read_file : string -> result (list Byte.byte);   (* ioutil.ReadFile *)
  write_file : string -> list Byte.byte -> Z -> option error; (* ioutil.WriteFile *)
  chmod : string -> Z -> option error              (* os.Chmod *)
}.

(** Observable effects, in program order. *)
Inductive event :=
| EUserCurrent
| EMkdirAll (p : string) (perm : Z)
| ERunCmd (name : string) (args : list string)
| EStat (p : string)
| EGet (url : string)
| ECreate (p : string)
| EOpenFile (p : string) (mode : Z)
| ECopy (p : string) (data : list Byte.byte)
| EZipOpen (p : string)
| EEntryOpen (name : string)
| EGetenv (key : string)
| EReadFile (p : string)
| EWriteFile (p : string) (data : list Byte.byte) (mode : Z)
| EChmod (p : string) (mode : Z).

(* ------------------------------------------------------------------ *)
(** * A trace-and-error monad for Go's [(T, error)] returns *)

Definition M (A : Type) : Type := list event * result A.

Definition ret {A} (a : A) : M A := ([], Ok a).
Definition throw {A} (e : error) : M A := ([], Err e).
Definition emit (ev : event) : M unit := ([ev], Ok tt).

Definition bind {A B} (m : M A) (k : A -> M B) : M B :=
  match m with
  | (t, Ok a) => let '(t', r) := k a in ((t ++ t')%list, r)
  | (t, Err e) => (t, Err e)
  end.

Notation "'let*' x := m 'in' k" := (bind m (fun x => k))
  (at level 200, x name, m at level 100, k at level 200).

(** [if err != nil { return .., err }] *)
Definition check (o : option error) : M unit :=
  match o with Some e => throw e | None => ret tt end.

(** The outcome a task sends on [errorChan]. *)
Definition outcome {A} (m : M A) : option error :=
  match m.2 with Ok _ => None | Err e => Some e end.

Definition is_windows (E : env) : bool := String.eqb (goos E) "windows".

(* ------------------------------------------------------------------ *)
(** * The package [standalone] *)

Definition baseDownloadURL : string :=
  "https://actionsreleases.blob.core.windows.net/release".
Definition actionsImageURL : string := "actionscore.azurecr.io/actions".

(** Permission bits: 0700, 0644, 0777. *)
Definition perm_0700 : Z := 448.
Definition perm_0644 : Z := 420.
Definition perm_0777 : Z := 511.

Definition getActionsDir (E : env) : M string :=
  let* p :=
    (if is_windows E then ret "c:\actions"
     else
       let* _ := emit EUserCurrent in
       match user_current E with
       | Err e => throw e
       | Ok home => ret (path_Join home ".actions")
       end) in
  let* _ := emit (EMkdirAll p perm_0700) in
  let* _ := check (mkdir_all E p perm_0700) in
  ret p.

Definition runCmd (E : env) (name : string) (args : list string) : M unit :=
  let* _ := emit (ERunCmd name args) in
  check (run_cmd E name args).

Definition parseDockerError (component : string) (err : error) : error :=
  match err with
  | ExitError exitCode =>
      if Z.eqb exitCode 125 then
        Errorf ("Failed to launch " +:+ component +:+ ". Is it already running?")
      else if Z.eqb exitCode 127 then
        Errorf ("Failed to launch " +:+ component
                +:+ ". Make sure Docker is installed and running")
      else err
  | _ => err
  end.

Definition isContainerRunError (err : error) : bool :=
  match err with
  | ExitError exitCode => Z.eqb exitCode 125
  | _ => false
  end.

(** A setup task's run: its effects and the one value it sends on
    [errorChan] ([None] is [nil]). *)
Definition task_run : Type := list event * option error.

Definition redis_args : list string :=
  ["run"; "--restart"; "always"; "-d"; "-p"; "6379:6379"; "redis"].

Definition runRedis (E : env) (dir version : string) : task_run :=
  let '(t, r) := runCmd E "docker" redis_args in
  (t, match r with
      | Err err =>
          let runError := isContainerRunError err in
          if negb runError then Some (parseDockerError "Redis state store" err)
          else None
      | Ok _ => None
      end).

Definition placement_args (E : env) (version : string) : list string :=
  let osPort : Z := if is_windows E then 6050%Z else 50005%Z in
  let image := actionsImageURL +:+ ":" +:+ version in
  ["run"; "--restart"; "always"; "-d"; "-p"; pretty osPort +:+ ":50005";
   "--entrypoint"; "./placement"; image].

Definition runPlacementService (E : env) (dir version : string) : task_run :=
  let '(t, r) := runCmd E "docker" (placement_args E version) in
  (t, match r with
      | Err err =>
          let runError := isContainerRunError err in
          if negb runError then Some (parseDockerError "placement service" err)
          else None
      | Ok _ => None
      end).

Definition makeExecutable (E : env) (filepath : string) : M unit :=
  if negb (is_windows E) then
    let* _ := emit (EChmod filepath perm_0777) in
    check (chmod E filepath perm_0777)
  else ret tt.

(** The [for _, file := range zipReader.Reader.File] loop returns in its
    first iteration; an archive without entries falls through to
    [return "", nil]. *)
Definition extractFile (E : env) (filepath targetDir : string) : M string :=
  let* _ := emit (EZipOpen filepath) in
  let* files :=
    (match zip_open E filepath with Ok fs => ret fs | Err e => throw e end) in
  match files with
  | [] => ret ""
  | file :: _ =>
      let* _ := emit (EEntryOpen (zname file)) in
      let* _ := check (zopen_err file) in
      let extractedFilePath := path_Join targetDir (zname file) in
      let* _ := emit (EOpenFile extractedFilePath (zmode file)) in
      let* _ := check (open_file E extractedFilePath (zmode file)) in
      let* _ := emit (ECopy extractedFilePath (zdata file)) in
      let* _ := check (copy_to E extractedFilePath (zdata file)) in
      ret extractedFilePath
  end.

Definition moveFileToPath (E : env) (filepath : string) : M string :=
  let fileName := filepath_Base filepath in
  if is_windows E then
    let* _ := emit (EGetenv "PATH") in
    let p := getenv E "PATH" in
    let* _ :=
      (if negb (Contains (ToLower p) (ToLower "c:\actions"))
       then runCmd E "SETX" ["PATH"; p +:+ ";c:\actions"]
       else ret tt) in
    ret "c:\actions\actionsrt.exe"
  else
    let destFilePath := path_Join "/usr/local/bin" fileName in
    let* _ := emit (EReadFile filepath) in
    let* input :=
      (match read_file E filepath with Ok b => ret b | Err e => throw e end) in
    let* _ := emit (EWriteFile destFilePath input perm_0644) in
    let* _ := check (write_file E destFilePath input perm_0644) in
    ret destFilePath.

Definition errno_is_exist (en : errno) : bool :=
  match en with EEXIST | ENOTEMPTY => true | _ => false end.

(** [os.IsExist(err)]: [err] unwraps to [ErrExist] ([EEXIST] or
    [ENOTEMPTY]); [os.IsExist(nil)] is false. *)
Definition os_IsExist (err : option error) : bool :=
  match err with
  | Some (PathError _ _ en) => errno_is_exist en
  | _ => false
  end.

(** The error [os.Stat(p)] returns. *)
Definition os_Stat_err (E : env) (p : string) : option error :=
  match stat E p with
  | Some f => Some (PathError "stat" p (errno_of_stat f))
  | None => None
  end.

Definition downloadFile (E : env) (dir url : string) : M string :=
  let tokens := split_on slash url in
  let fileName := last_token tokens in
  let filepath := path_Join dir fileName in
  let* _ := emit (EStat filepath) in
  let err := os_Stat_err E filepath in
  if os_IsExist err then ret ""
  else
    let* _ := emit (EGet url) in
    let* body :=
      (match http_get E url with Ok b => ret b | Err e => throw e end) in
    let* _ := emit (ECreate filepath) in
    let* _ := check (create E filepath) in
    let* _ := emit (ECopy filepath body) in
    let* _ := check (copy_to E filepath body) in
    ret filepath.

(** [if err != nil { errorChan <- fmt.Errorf(msg+"%s", err); return }] *)
Definition stage {A} (m : M A) (msg : string) (k : A -> task_run) : task_run :=
  match m with
  | (t, Err e) => (t, Some (Errorf (msg +:+ Error e)))
  | (t, Ok a) => let '(t', o) := k a in ((t ++ t')%list, o)
  end.

(** The part of [installActionsBinary] after extraction: relocation, then
    making the binary executable. *)
Definition install_from_extracted (E : env) (extractedFilePath : string)
  : task_run :=
  stage (moveFileToPath E extractedFilePath)
    "Error moving actions binary to path: " (fun actionsPath =>
  stage (makeExecutable E actionsPath)
    "Error making actions binary executable: " (fun _ =>
  ([], None))).

Definition actionsURL (E : env) (version : string) : string :=
  baseDownloadURL +:+ "/" +:+ version +:+ "/actionsrt_" +:+ goos E +:+ "_"
  +:+ goarch E +:+ ".zip".

Definition installActionsBinary (E : env) (dir version : string) : task_run :=
  stage (downloadFile E dir (actionsURL E version))
    "Error downloading actions binary: " (fun filepath =>
  stage (extractFile E filepath dir)
    "Error extracting actions binary: " (fun extractedFilePath =>
  install_from_extracted E extractedFilePath)).

(** [initSteps], in the order they are appended. *)
Definition initSteps : list (env -> string -> string -> task_run) :=
  [installActionsBinary; runPlacementService; runRedis].

(* ------------------------------------------------------------------ *)
(** * The concurrency of [Init]

    Each goroutine [go step(&wg, errorChan, dir, runtimeVersion)] is in one
    of three phases: doing its work ([Working]), blocked on the send
    [errorChan <- v] ([Sending]), or returned, its deferred [wg.Done()] run
    ([Done]).  [errorChan] is unbuffered ([make(chan error)]): a send
    completes only together with a receive of the draining loop
    [for err := range errorChan].  The closer goroutine
    [wg.Wait(); close(errorChan)] closes the channel once every task is
    [Done]; the loop then ends and [Init] returns [nil].  On a received
    non-nil error [Init] returns it. *)

Inductive phase := Working | Sending | Done.

(** The orchestrator: still draining, or returned with its result. *)
Inductive ostate := ODrain | ORet (r : option error).

Record cstate := mkC {
  tasks : list (phase * option error);  (* phase and the value it sends *)
  orch : ostate;
  closed : bool;                        (* close(errorChan) has run *)
  log : list (option error)             (* values received, in read order *)
}.

Definition is_done (t : phase * option error) : Prop := t.1 = Done.

Inductive step : relation cstate :=
| step_work i o ts oc c l :
    ts !! i = Some (Working, o) ->
    step (mkC ts oc c l) (mkC (<[i := (Sending, o)]> ts) oc c l)
| step_recv i o ts l :
    ts !! i = Some (Sending, o) ->
    step (mkC ts ODrain false l)
         (mkC (<[i := (Done, o)]> ts)
              (match o with None => ODrain | Some e => ORet (Some e) end)
              false (l ++ [o]))
| step_close ts oc l :
    Forall is_done ts ->
    step (mkC ts oc false l) (mkC ts oc true l)
| step_range_end ts l :
    step (mkC ts ODrain true l) (mkC ts (ORet None) true l).

(** The configuration right after [wg.Add(len(initSteps))] and the [go]
    statements: every task is working, nothing was sent yet. *)
Definition init_state (outcomes : list (option error)) : cstate :=
  mkC ((fun o => (Working, o)) <$> outcomes) ODrain false [].

(** [Init(runtimeVersion)] returns [r] after [n] receives on [errorChan]
    in some run: [getActionsDir] fails (no task starts), or the tasks of
    [initSteps] run and the orchestrator returns. *)
Definition Init (E : env) (runtimeVersion : string) (r : option error) (n : nat)
  : Prop :=
  match (getActionsDir E).2 with
  | Err e => r = Some e /\ n = 0%nat
  | Ok dir =>
      exists st,
        rtc step (init_state ((fun f => (f E dir runtimeVersion).2) <$> initSteps)) st
        /\ orch st = ORet r /\ length (log st) = n
  end.

(** The first non-nil value in read order. *)
Fixpoint first_error (l : list (option error)) : option error :=
  match l with
  | [] => None
  | Some e :: _ => Some e
  | None :: l' => first_error l'
  end.

(* ------------------------------------------------------------------ *)
(** * Invariant of the orchestrator's runs *)

Open Scope list_scope.

Definition dn (t : phase * option error) : nat :=
  match t.1 with Done => 1 | _ => 0 end.

Fixpoint ndone (ts : list (phase * option error)) : nat :=
  match ts with
  | [] => 0
  | t :: ts' => dn t + ndone ts'
  end.

Section Invariant.

Variable outcomes : list (option error).

Definition inv (st : cstate) : Prop :=
  snd <$> tasks st = outcomes /\
  (forall i o, tasks st !! i = Some (Done, o) -> o ∈ log st) /\
  Forall (fun o => o ∈ outcomes) (log st) /\
  length (log st) = ndone (tasks st) /\
  (closed st = true -> Forall is_done (tasks st)) /\
  match orch st with
  | ODrain => Forall (fun o => o = None) (log st)
  | ORet None => closed st = true /\ Forall (fun o => o = None) (log st)
  | ORet (Some e) => exists k, log st = (replicate k None ++ [Some e])%list
  end.

Lemma ndone_insert (ts : list (phase * option error)) i x y :
  ts !! i = Some y -> ndone (<[i := x]> ts) + dn y = ndone ts + dn x.
Proof.
  revert i. induction ts as [|t ts IH]; intros [|i] H; simpl in *; try done.
  - injection H as ->. lia.
  - specialize (IH i H). lia.
Qed.

Lemma ndone_all (ts : list (phase * option error)) : Forall is_done ts -> ndone ts = length ts.
Proof.
  induction 1 as [|t ts Ht _ IH]; simpl; [done|].
  unfold dn, is_done in *. rewrite Ht. lia.
Qed.

Lemma snd_insert_same (ts : list (phase * option error)) i p o q :
  ts !! i = Some (q, o) -> snd <$> <[i := (p, o)]> ts = snd <$> ts.
Proof.
  intros H. rewrite list_fmap_insert. simpl.
  apply list_insert_id. rewrite list_lookup_fmap, H. done.
Qed.

Lemma Forall_None_replicate (l : list (option error)) :
  Forall (fun o => o = None) l -> l = replicate (length l) None.
Proof. induction 1; simpl; congruence. Qed.

Lemma inv_init : inv (init_state outcomes).
Proof.
  unfold inv, init_state; simpl. split_and!.
  - rewrite <- list_fmap_compose. apply list_fmap_id.
  - intros i o H. apply list_lookup_fmap_Some in H as (? & ? & ?). done.
  - constructor.
  - induction outcomes as [|o os IH]; [done|]. cbn in *. exact IH.
  - done.
  - constructor.
Qed.

Lemma inv_step st st' : inv st -> step st st' -> inv st'.
Proof.
  intros (Hsnd & Hdone & Hin & Hlen & Hcl & Ho) Hs.
  destruct Hs as [i o ts oc c l Hi | i o ts l Hi | ts oc l Hall | ts l];
    simpl in *; unfold inv; simpl.
  - (* a task finishes its work and blocks on the send *)
    split_and!.
    + rewrite (snd_insert_same _ _ _ _ _ Hi). done.
    + intros j o' Hj. destruct (decide (i = j)) as [<-|Hne].
      * rewrite list_lookup_insert_eq in Hj; [done|].
        eapply lookup_lt_Some; eauto.
      * rewrite list_lookup_insert_ne in Hj by done. eauto.
    + done.
    + pose proof (ndone_insert ts i (Sending, o) _ Hi) as Hn.
      unfold dn in Hn; simpl in Hn. lia.
    + intros ->. specialize (Hcl eq_refl).
      pose proof (Forall_lookup_1 _ _ _ _ Hcl Hi) as Hd. done.
    + done.
  - (* the send completes together with the loop's receive *)
    split_and!.
    + rewrite (snd_insert_same _ _ _ _ _ Hi). done.
    + intros j o' Hj. destruct (decide (i = j)) as [<-|Hne].
      * rewrite list_lookup_insert_eq in Hj by (eapply lookup_lt_Some; eauto).
        injection Hj as <-. set_solver.
      * rewrite list_lookup_insert_ne in Hj by done.
        specialize (Hdone j o' Hj). set_solver.
    + apply Forall_app; split; [done|]. constructor; [|done].
      rewrite <- Hsnd. apply list_elem_of_lookup_2 with i.
      rewrite list_lookup_fmap, Hi. done.
    + pose proof (ndone_insert ts i (Done, o) _ Hi) as Hn.
      unfold dn in Hn; simpl in Hn. rewrite length_app; simpl. lia.
    + done.
    + destruct o as [e|].
      * exists (length l). rewrite <- Forall_None_replicate by done. done.
      * apply Forall_app; split; [done|]. constructor; done.
  - (* close(errorChan) after wg.Wait() *)
    split_and!; try done.
    destruct oc as [|[e|]]; try done. intuition.
  - (* the range loop ends on the closed channel *)
    split_and!; done.
Qed.

Lemma inv_reachable st : rtc step (init_state outcomes) st -> inv st.
Proof.
  revert st. apply rtc_ind_r; [apply inv_init|].
  intros s s' _ Hs Hinv. eapply inv_step; eauto.
Qed.

End Invariant.

Lemma first_error_nones_then (k : nat) (e : error) :
  first_error (replicate k None ++ [Some e])%list = Some e.
Proof. induction k; simpl; done. Qed.

Lemma first_error_all_nil (l : list (option error)) :
  Forall (fun o => o = None) l -> first_error l = None.
Proof. induction 1 as [|o l -> _ IH]; simpl; done. Qed.

(** A run that ends with [Init] returning [nil] read every task's value,
    and they were all [nil]. *)
Lemma returned_nil_all_nil (outcomes : list (option error)) st :
  rtc step (init_state outcomes) st -> orch st = ORet None ->
  Forall (fun o => o = None) outcomes /\ length (log st) = length outcomes.
Proof.
  intros Hr Ho.
  destruct (inv_reachable outcomes st Hr) as (Hsnd & Hdone & _ & Hlen & Hcl & Hor).
  rewrite Ho in Hor. destruct Hor as [Hc Hnil].
  specialize (Hcl Hc). split.
  - apply Forall_lookup. intros j o Hj.
    rewrite <- Hsnd, list_lookup_fmap in Hj.
    destruct (tasks st !! j) as [[p o']|] eqn:Ht; simpl in Hj; [|done].
    injection Hj as <-.
    pose proof (Forall_lookup_1 _ _ _ _ Hcl Ht) as Hp. unfold is_done in Hp.
    simpl in Hp. subst p.
    specialize (Hdone j o' Ht).
    rewrite Forall_forall in Hnil. auto.
  - rewrite Hlen, ndone_all by done.
    rewrite <- Hsnd, length_fmap. done.
Qed.

(** With every task reporting [nil], no run returns an error. *)
Lemma all_nil_never_error (outcomes : list (option error)) st r :
  Forall (fun o => o = None) outcomes ->
  rtc step (init_state outcomes) st -> orch st = ORet r -> r = None.
Proof.
  intros Hall Hr Ho.
  destruct (inv_reachable outcomes st Hr) as (_ & _ & Hin & _ & _ & Hor).
  rewrite Ho in Hor. destruct r as [e|]; [|done].
  destruct Hor as [k Hk]. rewrite Hk in Hin.
  apply Forall_app in Hin as [_ Hin]. apply Forall_inv in Hin.
  rewrite Forall_forall in Hall. specialize (Hall _ Hin). done.
Qed.

(** A schedule: each task in turn finishes and is received. *)
Lemma run_prefix (pre rest : list (option error)) :
  Forall (fun o => o = None) rest ->
  rtc step
    (mkC (((fun o => (Done, o)) <$> pre) ++ ((fun o => (Working, o)) <$> rest))
         ODrain false pre)
    (mkC ((fun o => (Done, o)) <$> (pre ++ rest)) ODrain false (pre ++ rest)).
Proof.
  intros H. revert pre. induction H as [|o rest Ho _ IH]; intros pre.
  - rewrite !app_nil_r. apply rtc_refl.
  - subst o. simpl.
    set (D := (fun o : option error => (Done, o))).
    set (W := (fun o : option error => (Working, o))).
    set (i := length (D <$> pre)).
    assert (Hins : forall x y (l : list (phase * option error)),
               <[i := x]> ((D <$> pre) ++ y :: l) = (D <$> pre) ++ x :: l).
    { intros x y l. replace i with (length (D <$> pre) + 0) by (unfold i; lia).
      rewrite insert_app_r. done. }
    assert (Hlk : forall y (l : list (phase * option error)),
               ((D <$> pre) ++ y :: l) !! i = Some y).
    { intros y l. rewrite lookup_app_r by (unfold i; lia).
      unfold i. rewrite Nat.sub_diag. done. }
    eapply rtc_l.
    { apply (step_work i None _ ODrain false pre (Hlk _ _)). }
    rewrite Hins.
    eapply rtc_l.
    { apply (step_recv i None _ pre (Hlk _ _)). }
    rewrite Hins.
    specialize (IH (pre ++ [None])%list).
    rewrite fmap_app, <- app_assoc in IH. simpl in IH.
    rewrite <- app_assoc in IH. exact IH.
Qed.

(** When every task reports [nil], the run that receives every value,
    closes the channel and leaves the loop returns [nil]. *)
Lemma all_nil_run (outcomes : list (option error)) :
  Forall (fun o => o = None) outcomes ->
  rtc step (init_state outcomes)
    (mkC ((fun o => (Done, o)) <$> outcomes) (ORet None) true outcomes).
Proof.
  intros H.
  pose proof (run_prefix [] outcomes H) as Hrun. simpl in Hrun.
  unfold init_state. etrans; [exact Hrun|].
  eapply rtc_l.
  { apply step_close. apply Forall_fmap. apply Forall_true. done. }
  eapply rtc_l; [apply step_range_end|]. apply rtc_refl.
Qed.

(** Once [Init] has returned, a task blocked on the unbuffered send stays
    blocked: nothing receives any more, so its deferred [wg.Done()] never
    runs and the channel is never closed. *)
Lemma blocked_after_return st st' i o r :
  orch st = ORet r -> closed st = false ->
  tasks st !! i = Some (Sending, o) ->
  rtc step st st' ->
  orch st' = ORet r /\ closed st' = false /\ tasks st' !! i = Some (Sending, o).
Proof.
  intros Ho Hc Hi Hr. revert Ho Hc Hi.
  induction Hr as [s|s s1 s2 Hs _ IH]; intros Ho Hc Hi; [done|].
  apply IH; clear IH;
    destruct Hs as [j o' ts oc c l Hj | j o' ts l Hj | ts oc l Hall | ts l];
    simpl in *; try discriminate; try done.
  all: first
    [ pose proof (Forall_lookup_1 _ _ _ _ Hall Hi) as Hd; done
    | rewrite list_lookup_insert_ne; [done|]; intros <-; congruence ].
Qed.

(* ------------------------------------------------------------------ *)
(** * Concrete environments *)

Definition entryA : zip_entry :=
  {| zname := "actionsrt"; zmode := 493; zdata := [Byte.x7f; Byte.x45];
     zopen_err := None |}.
Definition entryB : zip_entry :=
  {| zname := "README.md"; zmode := 420; zdata := [Byte.x23];
     zopen_err := None |}.

(** The spec's example host: Linux/amd64, network reachable, the archive
    holds [actionsrt] then [README.md], and the container runtime is not
    installed (the shell reports exit status 127). *)
Definition E_nodocker : env := {|
  goos := "linux"; goarch := "amd64";
  user_current := Ok "/home/u";
  mkdir_all := fun _ _ => None;
  run_cmd := fun _ _ => Some (ExitError 127);
  stat := fun _ => Some SENOENT;
  http_get := fun _ => Ok [Byte.x50; Byte.x4b];
  create := fun _ => None;
  open_file := fun _ _ => None;
  copy_to := fun _ _ => None;
  zip_open := fun _ => Ok [entryA; entryB];
  getenv := fun _ => "/usr/bin";
  read_file := fun _ => Ok [Byte.x7f; Byte.x45];
  write_file := fun _ _ _ => None;
  chmod := fun _ _ => None
|}.

Example path_Join_examples :
  path_Join "/home/u" ".actions" = "/home/u/.actions" /\
  path_Join "/usr/local/bin" "." = "/usr/local/bin" /\
  path_Join "dir/" "../a//b/" = "a/b" /\
  path_Join "/" "../x" = "/x" /\
  path_Join "" "" = "" /\
  path_Join "a" "../.." = "..".
Proof. vm_compute. repeat split. Qed.

Example getActionsDir_nodocker :
  getActionsDir E_nodocker =
    ([EUserCurrent; EMkdirAll "/home/u/.actions" 448], Ok "/home/u/.actions").
Proof. reflexivity. Qed.

Example placement_args_linux :
  placement_args E_nodocker "0.3.0" =
    ["run"; "--restart"; "always"; "-d"; "-p"; "50005:50005";
     "--entrypoint"; "./placement"; "actionscore.azurecr.io/actions:0.3.0"].
Proof. vm_compute. reflexivity. Qed.

Example outcomes_nodocker :
  (fun f => (f E_nodocker "/home/u/.actions" "0.3.0").2) <$> initSteps =
    [None;
     Some (Errorf "Failed to launch placement service. Make sure Docker is installed and running");
     Some (Errorf "Failed to launch Redis state store. Make sure Docker is installed and running")].
Proof. vm_compute. reflexivity. Qed.

Example install_trace_nodocker :
  (installActionsBinary E_nodocker "/home/u/.actions" "0.3.0").1 =
    [EStat "/home/u/.actions/actionsrt_linux_amd64.zip";
     EGet "https://actionsreleases.blob.core.windows.net/release/0.3.0/actionsrt_linux_amd64.zip";
     ECreate "/home/u/.actions/actionsrt_linux_amd64.zip";
     ECopy "/home/u/.actions/actionsrt_linux_amd64.zip" [Byte.x50; Byte.x4b];
     EZipOpen "/home/u/.actions/actionsrt_linux_amd64.zip";
     EEntryOpen "actionsrt";
     EOpenFile "/home/u/.actions/actionsrt" 493;
     ECopy "/home/u/.actions/actionsrt" [Byte.x7f; Byte.x45];
     EReadFile "/home/u/.actions/actionsrt";
     EWriteFile "/usr/local/bin/actionsrt" [Byte.x7f; Byte.x45] 420;
     EChmod "/usr/local/bin/actionsrt" 511].
Proof. vm_compute. reflexivity. Qed.

(* ------------------------------------------------------------------ *)
(** * Helper lemmas for the claims *)

Definition tasks_report_nil (E : env) (runtimeVersion : string) : Prop :=
  exists dir, (getActionsDir E).2 = Ok dir /\
    Forall (fun f => (f E dir runtimeVersion).2 = None) initSteps.

(** The failures [exec.Command(..).Run()] reports other than exit
    statuses 125 and 127: another non-zero exit status, or a spawn error,
    either [*exec.Error] (the executable was not found) or [*os.PathError]
    ([os.StartProcess] failed, as in [fork/exec ...], or a standard stream
    could not be opened). *)
Definition other_runtime_failure (e : error) : Prop :=
  match e with
  | ExitError c => c <> 125%Z /\ c <> 127%Z
  | ExecError _ _ => True
  | PathError _ _ _ => True
  | _ => False
  end.

Definition docker_missing_msg (component : string) : string :=
  "Failed to launch " +:+ component +:+ ". Make sure Docker is installed and running".

Lemma parseDockerError_other (component : string) (e : error) :
  other_runtime_failure e -> parseDockerError component e = e.
Proof.
  destruct e as [c| | | |]; simpl; try done.
  intros [H1 H2]. apply Z.eqb_neq in H1, H2. rewrite H1, H2. done.
Qed.

Lemma other_runtime_failure_not_125 (e : error) :
  other_runtime_failure e -> isContainerRunError e = false.
Proof. destruct e; simpl; try done. intros [H _]. apply Z.eqb_neq. done. Qed.

(** Whether a string contains a colon. *)
Fixpoint has_colon (s : string) : bool :=
  match s with
  | EmptyString => false
  | String c s' => if ascii_dec c ":"%char then true else has_colon s'
  end.

Lemma has_colon_app (a b : string) :
  has_colon (a +:+ b) = has_colon a || has_colon b.
Proof.
  induction a as [|c a IH]; [reflexivity|].
  change (has_colon (String c a +:+ b))
    with (if ascii_dec c ":"%char then true else has_colon (a +:+ b)).
  simpl. destruct (ascii_dec c ":"%char); [done|exact IH].
Qed.

Lemma other_failure_msg_differs (component : string) (e : error) :
  has_colon component = false ->
  other_runtime_failure e -> Error e <> docker_missing_msg component.
Proof.
  intros Hc. destruct e as [c|name inner|op p en| |]; simpl; try done;
    intros _ H; try discriminate H.
  - apply (f_equal has_colon) in H.
    unfold docker_missing_msg in H. rewrite !has_colon_app in H.
    rewrite Hc in H. simpl in H.
    rewrite !orb_true_r in H. discriminate H.
Qed.

Lemma os_Stat_never_exists (E : env) (p : string) :
  os_IsExist (os_Stat_err E p) = false.
Proof. unfold os_Stat_err. destruct (stat E p) as [[]|]; done. Qed.

Lemma prefix_app_self (s t : string) : String.prefix s (s +:+ t) = true.
Proof.
  induction s as [|c s IH]; [destruct t; done|]. simpl.
  destruct (ascii_dec c c); [done|congruence].
Qed.

Lemma Contains_unfold (s substr : string) :
  Contains s substr =
  String.prefix substr s ||
  match s with EmptyString => false | String _ s' => Contains s' substr end.
Proof. destruct s; reflexivity. Qed.

Lemma Contains_app (pre sub post : string) :
  Contains (pre +:+ sub +:+ post) sub = true.
Proof.
  induction pre as [|c pre IH].
  - change ("" +:+ sub +:+ post) with (sub +:+ post).
    rewrite Contains_unfold, prefix_app_self. done.
  - simpl. rewrite IH. apply orb_true_r.
Qed.

Lemma ToLower_app (a b : string) : ToLower (a +:+ b) = ToLower a +:+ ToLower b.
Proof.
  induction a as [|c a IH]; [reflexivity|].
  change (ToLower (String c a +:+ b))
    with (String (ascii_lower c) (ToLower (a +:+ b))).
  rewrite IH. reflexivity.
Qed.

(* ------------------------------------------------------------------ *)
(** * The claims *)

(** C1 (fail-fast): in every run of the orchestrator over any list of
    task outcomes, as soon as the values read from [errorChan] contain a
    non-nil error, [Init] has returned exactly the first non-nil error in
    read order, whichever task sent it, and that error is the last value
    it read: it returns at that receive, without waiting for the other
    tasks. *)
Theorem Init_returns_first_error (outcomes : list (option error))
    (st : cstate) (e : error) :
  rtc step (init_state outcomes) st ->
  first_error (log st) = Some e ->
  orch st = ORet (Some e) /\ last (log st) = Some (Some e).
Proof.
  intros Hr Hf.
  destruct (inv_reachable outcomes st Hr) as (_ & _ & _ & _ & _ & Hor).
  destruct (orch st) as [|[e'|]].
  - rewrite first_error_all_nil in Hf by done. discriminate.
  - destruct Hor as [k Hk]. rewrite Hk, first_error_nones_then in Hf.
    injection Hf as ->. rewrite Hk, last_snoc. done.
  - destruct Hor as [_ Hnil]. rewrite first_error_all_nil in Hf by done.
    discriminate.
Qed.

Definition C1_outcomes : list (option error) :=
  [None; Some (Errorf "placement down"); Some (Errorf "redis down")].

Definition C1_state : cstate :=
  mkC [(Working, None); (Done, Some (Errorf "placement down"));
       (Working, Some (Errorf "redis down"))]
      (ORet (Some (Errorf "placement down"))) false
      [Some (Errorf "placement down")].

Lemma Init_returns_first_error_witness :
  rtc step (init_state C1_outcomes) C1_state /\
  first_error (log C1_state) = Some (Errorf "placement down") /\
  orch C1_state = ORet (Some (Errorf "placement down")).
Proof.
  assert (Hr : rtc step (init_state C1_outcomes) C1_state).
  { eapply rtc_l. { apply (step_work 1); reflexivity. }
    eapply rtc_l. { apply (step_recv 1); reflexivity. }
    apply rtc_refl. }
  split; [exact Hr|]. split; [reflexivity|].
  exact (proj1 (Init_returns_first_error C1_outcomes C1_state _ Hr eq_refl)).
Defined.

(** C2 (all-success): [Init] returns [nil] exactly when [getActionsDir]
    succeeds and each of its N = 3 setup tasks sends [nil]; a run
    returning [nil] received exactly N values from [errorChan], and when
    all tasks send [nil] such a run exists and no run returns an error. *)
Theorem Init_nil_iff_tasks_nil (E : env) (runtimeVersion : string) :
  (forall n, Init E runtimeVersion None n ->
     tasks_report_nil E runtimeVersion /\ n = length initSteps) /\
  (tasks_report_nil E runtimeVersion ->
     Init E runtimeVersion None (length initSteps) /\
     forall r n, Init E runtimeVersion r n -> r = None).
Proof.
  unfold Init, tasks_report_nil.
  destruct ((getActionsDir E).2) as [dir|e] eqn:Hd.
  - set (outs := (fun f => (f E dir runtimeVersion).2) <$> initSteps).
    split.
    + intros n (st & Hr & Ho & Hn).
      destruct (returned_nil_all_nil outs st Hr Ho) as [Hall Hlen].
      split.
      * exists dir. split; [done|]. apply Forall_fmap in Hall. exact Hall.
      * rewrite <- Hn, Hlen. unfold outs. rewrite length_fmap. done.
    + intros (dir' & Hd' & Hall). injection Hd' as <-.
      assert (Hnil : Forall (fun o => o = None) outs)
        by (apply Forall_fmap; exact Hall).
      split.
      * eexists. split; [apply (all_nil_run outs Hnil)|].
        split; [done|]. reflexivity.
      * intros r n (st & Hr & Ho & _). eapply all_nil_never_error; eauto.
  - split.
    + intros n [Hn _]. discriminate.
    + intros (dir & Hd' & _). discriminate.
Qed.

(** C3 (already-running tolerance): for both launchers, when the docker
    invocation exits with status 125 the task sends [nil]. *)
Theorem launchers_tolerate_exit_125 (E : env) (dir version : string) :
  (run_cmd E "docker" redis_args = Some (ExitError 125) ->
   (runRedis E dir version).2 = None) /\
  (run_cmd E "docker" (placement_args E version) = Some (ExitError 125) ->
   (runPlacementService E dir version).2 = None).
Proof.
  unfold runRedis, runPlacementService, runCmd, bind, emit, check, throw.
  split; intros H; rewrite H; reflexivity.
Qed.

Definition E_running : env :=
  {| goos := "linux"; goarch := "amd64"; user_current := Ok "/home/u";
     mkdir_all := fun _ _ => None; run_cmd := fun _ _ => Some (ExitError 125);
     stat := fun _ => Some SENOENT; http_get := fun _ => Ok [];
     create := fun _ => None; open_file := fun _ _ => None;
     copy_to := fun _ _ => None; zip_open := fun _ => Ok [];
     getenv := fun _ => ""; read_file := fun _ => Ok [];
     write_file := fun _ _ _ => None; chmod := fun _ _ => None |}.

Lemma launchers_tolerate_exit_125_witness :
  run_cmd E_running "docker" redis_args = Some (ExitError 125) /\
  run_cmd E_running "docker" (placement_args E_running "0.3.0") = Some (ExitError 125) /\
  (runRedis E_running "/home/u/.actions" "0.3.0").2 = None /\
  (runPlacementService E_running "/home/u/.actions" "0.3.0").2 = None.
Proof.
  pose proof (launchers_tolerate_exit_125 E_running "/home/u/.actions" "0.3.0")
    as [H1 H2].
  split; [reflexivity|]. split; [reflexivity|].
  split; [apply H1; reflexivity | apply H2; reflexivity].
Defined.

(** C4 (missing-tool distinction): for both launchers, when the docker
    invocation exits with status 127 the task sends an error whose message
    says Docker must be installed and running, and that message differs
    from the message the task sends for any other runtime failure (another
    non-zero exit status, or a spawn error). *)
Theorem launchers_exit_127_message (E : env) (dir version : string) :
  (run_cmd E "docker" redis_args = Some (ExitError 127) ->
   (runRedis E dir version).2 = Some (Errorf (docker_missing_msg "Redis state store")) /\
   forall e, other_runtime_failure e ->
     Error (parseDockerError "Redis state store" e)
       <> docker_missing_msg "Redis state store") /\
  (run_cmd E "docker" (placement_args E version) = Some (ExitError 127) ->
   (runPlacementService E dir version).2
     = Some (Errorf (docker_missing_msg "placement service")) /\
   forall e, other_runtime_failure e ->
     Error (parseDockerError "placement service" e)
       <> docker_missing_msg "placement service").
Proof.
  unfold runRedis, runPlacementService, runCmd, bind, emit, check, throw.
  split; intros H; rewrite H; (split; [reflexivity|]);
    intros e He; rewrite parseDockerError_other by done;
    (apply other_failure_msg_differs; [reflexivity|done]).
Qed.

Lemma launchers_exit_127_message_witness :
  run_cmd E_nodocker "docker" redis_args = Some (ExitError 127) /\
  run_cmd E_nodocker "docker" (placement_args E_nodocker "0.3.0") = Some (ExitError 127) /\
  (runRedis E_nodocker "/home/u/.actions" "0.3.0").2
    = Some (Errorf (docker_missing_msg "Redis state store")) /\
  (runPlacementService E_nodocker "/home/u/.actions" "0.3.0").2
    = Some (Errorf (docker_missing_msg "placement service")).
Proof.
  pose proof (launchers_exit_127_message E_nodocker "/home/u/.actions" "0.3.0")
    as [H1 H2].
  split; [reflexivity|]. split; [reflexivity|].
  split; [apply H1; reflexivity | apply H2; reflexivity].
Defined.

(** A host where docker runs but fails with exit status 1. *)
Definition E_exit1 : env :=
  {| goos := "linux"; goarch := "amd64"; user_current := Ok "/home/u";
     mkdir_all := fun _ _ => None; run_cmd := fun _ _ => Some (ExitError 1);
     stat := fun _ => Some SENOENT; http_get := fun _ => Ok [];
     create := fun _ => None; open_file := fun _ _ => None;
     copy_to := fun _ _ => None; zip_open := fun _ => Ok [];
     getenv := fun _ => ""; read_file := fun _ => Ok [];
     write_file := fun _ _ _ => None; chmod := fun _ _ => None |}.

(** C5, refuted: an exit status of 1 from docker reaches the orchestrator
    as the bare [exit status 1], which does not name the Redis state
    store. *)
Lemma launcher_generic_failure_counterexample :
  ~ (forall E dir version e,
       run_cmd E "docker" redis_args = Some e -> other_runtime_failure e ->
       exists e', (runRedis E dir version).2 = Some e' /\
                  Contains (Error e') "Redis state store" = true).
Proof.
  intros H.
  assert (Hx : other_runtime_failure (ExitError 1)) by (split; discriminate).
  destruct (H E_exit1 "/home/u/.actions" "0.3.0" (ExitError 1) eq_refl Hx)
    as (e' & He & Hc).
  vm_compute in He. injection He as <-. vm_compute in Hc. discriminate Hc.
Qed.

(** C5, as the code does it: for both launchers, an exit status other than
    125 and 127, or a spawn error, is sent unchanged as the error of the
    docker invocation itself, without a component name. *)
Theorem launchers_pass_other_failures_through (E : env) (dir version : string)
    (e : error) :
  other_runtime_failure e ->
  (run_cmd E "docker" redis_args = Some e -> (runRedis E dir version).2 = Some e) /\
  (run_cmd E "docker" (placement_args E version) = Some e ->
   (runPlacementService E dir version).2 = Some e).
Proof.
  intros He.
  unfold runRedis, runPlacementService, runCmd, bind, emit, check, throw.
  split; intros H; rewrite H; simpl;
    rewrite other_runtime_failure_not_125, parseDockerError_other by done;
    reflexivity.
Qed.

Lemma launchers_pass_other_failures_through_witness :
  other_runtime_failure (ExitError 1) /\
  (runRedis E_exit1 "/home/u/.actions" "0.3.0").2 = Some (ExitError 1).
Proof.
  assert (He : other_runtime_failure (ExitError 1))
    by (split; discriminate).
  split; [exact He|].
  apply (proj1 (launchers_pass_other_failures_through
                  E_exit1 "/home/u/.actions" "0.3.0" (ExitError 1) He)).
  reflexivity.
Defined.

(** The destination [path.Join(dir, fileName)] of [downloadFile]. *)
Definition download_path (dir url : string) : string :=
  path_Join dir (last_token (split_on slash url)).

(** C6 (the skip check is dead): whatever [os.Stat] reports, including
    that the destination already exists, [downloadFile] goes on to the
    network GET right after the stat; when the GET, the create and the
    copy succeed it writes the body to the destination and returns it. *)
Theorem downloadFile_always_fetches (E : env) (dir url : string) :
  (exists rest, (downloadFile E dir url).1
                = EStat (download_path dir url) :: EGet url :: rest) /\
  (forall body,
     http_get E url = Ok body ->
     create E (download_path dir url) = None ->
     copy_to E (download_path dir url) body = None ->
     downloadFile E dir url =
       ([EStat (download_path dir url); EGet url;
         ECreate (download_path dir url); ECopy (download_path dir url) body],
        Ok (download_path dir url))).
Proof.
  unfold downloadFile, download_path. cbv zeta.
  rewrite os_Stat_never_exists.
  set (p := path_Join dir (last_token (split_on slash url))).
  unfold bind, emit, ret, throw, check. simpl.
  split.
  - destruct (http_get E url) as [body|e]; simpl; [|eexists; reflexivity].
    destruct (create E p); simpl; [eexists; reflexivity|].
    destruct (copy_to E p body); simpl; eexists; reflexivity.
  - intros body Hg Hc Hw. rewrite Hg. simpl. rewrite Hc. simpl.
    rewrite Hw. reflexivity.
Qed.

(** A host where the archive was already downloaded: [os.Stat] succeeds. *)
Definition E_cached : env :=
  {| goos := "linux"; goarch := "amd64"; user_current := Ok "/home/u";
     mkdir_all := fun _ _ => None; run_cmd := fun _ _ => None;
     stat := fun _ => None; http_get := fun _ => Ok [Byte.x50; Byte.x4b];
     create := fun _ => None; open_file := fun _ _ => None;
     copy_to := fun _ _ => None; zip_open := fun _ => Ok [entryA];
     getenv := fun _ => ""; read_file := fun _ => Ok [];
     write_file := fun _ _ _ => None; chmod := fun _ _ => None |}.

Lemma downloadFile_always_fetches_witness :
  stat E_cached "/home/u/.actions/actionsrt_linux_amd64.zip" = None /\
  downloadFile E_cached "/home/u/.actions" (actionsURL E_cached "0.3.0") =
    ([EStat "/home/u/.actions/actionsrt_linux_amd64.zip";
      EGet "https://actionsreleases.blob.core.windows.net/release/0.3.0/actionsrt_linux_amd64.zip";
      ECreate "/home/u/.actions/actionsrt_linux_amd64.zip";
      ECopy "/home/u/.actions/actionsrt_linux_amd64.zip" [Byte.x50; Byte.x4b]],
     Ok "/home/u/.actions/actionsrt_linux_amd64.zip").
Proof.
  split; [reflexivity|].
  exact (proj2 (downloadFile_always_fetches E_cached "/home/u/.actions"
                  (actionsURL E_cached "0.3.0")) [Byte.x50; Byte.x4b]
               eq_refl eq_refl eq_refl).
Defined.

(** C7 (first entry only): for an archive whose entries are [A] then any
    others, [extractFile] opens only [A], creates only [A]'s path under the
    target directory with [A]'s mode bits and copies only [A]'s contents
    (whatever fails on the way); when nothing fails it returns [A]'s path. *)
Theorem extractFile_first_entry_only (E : env) (filepath targetDir : string)
    (A : zip_entry) (rest : list zip_entry) :
  zip_open E filepath = Ok (A :: rest) ->
  (forall ev, ev ∈ (extractFile E filepath targetDir).1 ->
     ev ∈ [EZipOpen filepath; EEntryOpen (zname A);
           EOpenFile (path_Join targetDir (zname A)) (zmode A);
           ECopy (path_Join targetDir (zname A)) (zdata A)]) /\
  (zopen_err A = None ->
   open_file E (path_Join targetDir (zname A)) (zmode A) = None ->
   copy_to E (path_Join targetDir (zname A)) (zdata A) = None ->
   extractFile E filepath targetDir =
     ([EZipOpen filepath; EEntryOpen (zname A);
       EOpenFile (path_Join targetDir (zname A)) (zmode A);
       ECopy (path_Join targetDir (zname A)) (zdata A)],
      Ok (path_Join targetDir (zname A)))).
Proof.
  intros Hz. unfold extractFile. rewrite Hz.
  unfold bind, emit, ret, throw, check. simpl.
  split.
  - destruct (zopen_err A); simpl; [set_solver|].
    destruct (open_file E (path_Join targetDir (zname A)) (zmode A));
      simpl; [set_solver|].
    destruct (copy_to E (path_Join targetDir (zname A)) (zdata A));
      simpl; set_solver.
  - intros H1 H2 H3. rewrite H1. simpl. rewrite H2. simpl. rewrite H3.
    reflexivity.
Qed.

Lemma extractFile_first_entry_only_witness :
  zip_open E_nodocker "/home/u/.actions/actionsrt_linux_amd64.zip"
    = Ok [entryA; entryB] /\
  extractFile E_nodocker "/home/u/.actions/actionsrt_linux_amd64.zip"
      "/home/u/.actions" =
    ([EZipOpen "/home/u/.actions/actionsrt_linux_amd64.zip";
      EEntryOpen "actionsrt";
      EOpenFile "/home/u/.actions/actionsrt" 493;
      ECopy "/home/u/.actions/actionsrt" [Byte.x7f; Byte.x45]],
     Ok "/home/u/.actions/actionsrt").
Proof.
  split; [reflexivity|].
  exact (proj2 (extractFile_first_entry_only E_nodocker
                  "/home/u/.actions/actionsrt_linux_amd64.zip" "/home/u/.actions"
                  entryA [entryB] eq_refl) eq_refl eq_refl eq_refl).
Defined.

(** C8 (PATH idempotence on Windows): when PATH already contains the
    install directory [c:\actions] in any ASCII letter case,
    [moveFileToPath] only reads PATH and runs no SETX command. *)
Theorem moveFileToPath_windows_no_setx (E : env) (filepath pre s post : string) :
  is_windows E = true ->
  getenv E "PATH" = pre +:+ s +:+ post ->
  ToLower s = "c:\actions" ->
  moveFileToPath E filepath = ([EGetenv "PATH"], Ok "c:\actions\actionsrt.exe").
Proof.
  intros Hw Hp Hs. unfold moveFileToPath. rewrite Hw, Hp.
  rewrite !ToLower_app, Hs.
  change (ToLower "c:\actions") with "c:\actions".
  rewrite Contains_app. reflexivity.
Qed.

Definition E_windows : env :=
  {| goos := "windows"; goarch := "amd64"; user_current := Ok "C:\Users\u";
     mkdir_all := fun _ _ => None; run_cmd := fun _ _ => None;
     stat := fun _ => Some SENOENT; http_get := fun _ => Ok [];
     create := fun _ => None; open_file := fun _ _ => None;
     copy_to := fun _ _ => None; zip_open := fun _ => Ok [];
     getenv := fun _ => "C:\Windows;C:\Actions;C:\Tools";
     read_file := fun _ => Ok []; write_file := fun _ _ _ => None;
     chmod := fun _ _ => None |}.

Lemma moveFileToPath_windows_no_setx_witness :
  moveFileToPath E_windows "c:\actions\actionsrt.exe"
    = ([EGetenv "PATH"], Ok "c:\actions\actionsrt.exe").
Proof.
  apply (moveFileToPath_windows_no_setx E_windows "c:\actions\actionsrt.exe"
           "C:\Windows;" "C:\Actions" ";C:\Tools");
    vm_compute; reflexivity.
Defined.

(** C9, refuted (a defect of [Init]): on the spec's example host (Linux,
    Docker missing) there is a run where [Init] returns the placement
    service's error while the installer task and the Redis task are
    blocked on their sends to the unbuffered [errorChan]; from then on
    they stay blocked in every continuation: neither sends its value nor
    runs its deferred [wg.Done()], and the channel is never closed. *)
Theorem Init_leaves_senders_blocked :
  (getActionsDir E_nodocker).2 = Ok "/home/u/.actions" /\
  exists st,
    rtc step (init_state ((fun f => (f E_nodocker "/home/u/.actions" "0.3.0").2)
                            <$> initSteps)) st /\
    orch st = ORet (Some (Errorf (docker_missing_msg "placement service"))) /\
    forall st', rtc step st st' ->
      closed st' = false /\
      tasks st' !! 0%nat = Some (Sending, None) /\
      tasks st' !! 2%nat
        = Some (Sending, Some (Errorf (docker_missing_msg "Redis state store"))).
Proof.
  split; [reflexivity|].
  rewrite outcomes_nodocker.
  set (pe := Errorf (docker_missing_msg "placement service")).
  set (re := Errorf (docker_missing_msg "Redis state store")).
  set (st0 := mkC [(Sending, None); (Done, Some pe); (Sending, Some re)]
                  (ORet (Some pe)) false [Some pe]).
  exists st0.
  split.
  { eapply rtc_l. { apply (step_work 0); reflexivity. }
    eapply rtc_l. { apply (step_work 1); reflexivity. }
    eapply rtc_l. { apply (step_work 2); reflexivity. }
    eapply rtc_l. { apply (step_recv 1); reflexivity. }
    apply rtc_refl. }
  split; [reflexivity|].
  intros st' Hr.
  destruct (blocked_after_return st0 st' 0 None (Some pe) eq_refl eq_refl eq_refl Hr)
    as (_ & Hc & H0).
  destruct (blocked_after_return st0 st' 2 (Some re) (Some pe) eq_refl eq_refl eq_refl Hr)
    as (_ & _ & H2).
  done.
Qed.

(** C10 (empty archive): for an archive without entries [extractFile]
    returns the empty path with no error, and [installActionsBinary]
    continues with relocation (and then [makeExecutable]) of the empty
    path. *)
Theorem extractFile_empty_archive (E : env) (dir version : string)
    (t : list event) (filepath : string) :
  downloadFile E dir (actionsURL E version) = (t, Ok filepath) ->
  zip_open E filepath = Ok [] ->
  extractFile E filepath dir = ([EZipOpen filepath], Ok "") /\
  installActionsBinary E dir version =
    (t ++ EZipOpen filepath :: (install_from_extracted E "").1,
     (install_from_extracted E "").2).
Proof.
  intros Hd Hz.
  assert (Hx : extractFile E filepath dir = ([EZipOpen filepath], Ok "")).
  { unfold extractFile. rewrite Hz. reflexivity. }
  split; [exact Hx|].
  unfold installActionsBinary. unfold stage at 1. rewrite Hd.
  unfold stage at 1. rewrite Hx.
  destruct (install_from_extracted E "") as [t' o]. reflexivity.
Qed.

Lemma extractFile_empty_archive_witness :
  downloadFile E_running "/home/u/.actions" (actionsURL E_running "0.3.0") =
    ([EStat "/home/u/.actions/actionsrt_linux_amd64.zip";
      EGet "https://actionsreleases.blob.core.windows.net/release/0.3.0/actionsrt_linux_amd64.zip";
      ECreate "/home/u/.actions/actionsrt_linux_amd64.zip";
      ECopy "/home/u/.actions/actionsrt_linux_amd64.zip" []],
     Ok "/home/u/.actions/actionsrt_linux_amd64.zip") /\
  zip_open E_running "/home/u/.actions/actionsrt_linux_amd64.zip" = Ok [] /\
  extractFile E_running "/home/u/.actions/actionsrt_linux_amd64.zip"
    "/home/u/.actions" = ([EZipOpen "/home/u/.actions/actionsrt_linux_amd64.zip"], Ok "").
Proof.
  assert (Hd : downloadFile E_running "/home/u/.actions" (actionsURL E_running "0.3.0") =
    ([EStat "/home/u/.actions/actionsrt_linux_amd64.zip";
      EGet "https://actionsreleases.blob.core.windows.net/release/0.3.0/actionsrt_linux_amd64.zip";
      ECreate "/home/u/.actions/actionsrt_linux_amd64.zip";
      ECopy "/home/u/.actions/actionsrt_linux_amd64.zip" []],
     Ok "/home/u/.actions/actionsrt_linux_amd64.zip"))
    by (vm_compute; reflexivity).
  split; [exact Hd|]. split; [reflexivity|].
  exact (proj1 (extractFile_empty_archive E_running "/home/u/.actions" "0.3.0"
                  _ _ Hd eq_refl)).
Defined.

Example install_empty_archive_linux :
  (installActionsBinary E_running "/home/u/.actions" "0.3.0").1 =
    [EStat "/home/u/.actions/actionsrt_linux_amd64.zip";
     EGet "https://actionsreleases.blob.core.windows.net/release/0.3.0/actionsrt_linux_amd64.zip";
     ECreate "/home/u/.actions/actionsrt_linux_amd64.zip";
     ECopy "/home/u/.actions/actionsrt_linux_amd64.zip" [];
     EZipOpen "/home/u/.actions/actionsrt_linux_amd64.zip";
     EReadFile "";
     EWriteFile "/usr/local/bin" [] 420;
     EChmod "/usr/local/bin" 511].
Proof. vm_compute. reflexivity. Qed.

(* ------------------------------------------------------------------ *)
(** * Further properties of the package *)

(** The errors [exec.Command(..).Run()] returns: [*exec.ExitError],
    [*exec.Error], or [*os.PathError] when the process cannot be started. *)
Definition exec_error (e : error) : Prop :=
  match e with
  | ExitError _ | ExecError _ _ | PathError _ _ _ => True
  | _ => False
  end.

(** [runRedis] runs exactly one docker command, and sends [nil] exactly
    when that command succeeds or exits with status 125. *)
Theorem runRedis_outcome (E : env) (dir version : string) :
  (runRedis E dir version).1 = [ERunCmd "docker" redis_args] /\
  ((runRedis E dir version).2 = None <->
   run_cmd E "docker" redis_args = None \/
   run_cmd E "docker" redis_args = Some (ExitError 125)).
Proof.
  unfold runRedis, runCmd, bind, emit, check, throw, ret. simpl.
  destruct (run_cmd E "docker" redis_args) as [e|]; simpl; [|intuition].
  split; [done|].
  destruct (isContainerRunError e) eqn:Hc; simpl.
  - destruct e; simpl in Hc; try discriminate.
    apply Z.eqb_eq in Hc. subst. intuition.
  - split; [discriminate|]. intros [H|H]; [discriminate|].
    injection H as ->. discriminate.
Qed.

(** [runPlacementService] runs exactly one docker command, mapping host
    port 6050 on Windows and 50005 elsewhere to the container's port
    50005, and sends [nil] exactly when that command succeeds or exits
    with status 125. *)
Theorem runPlacementService_outcome (E : env) (dir version : string) :
  (runPlacementService E dir version).1 = [ERunCmd "docker" (placement_args E version)] /\
  ((runPlacementService E dir version).2 = None <->
   run_cmd E "docker" (placement_args E version) = None \/
   run_cmd E "docker" (placement_args E version) = Some (ExitError 125)).
Proof.
  unfold runPlacementService, runCmd, bind, emit, check, throw, ret. simpl.
  destruct (run_cmd E "docker" (placement_args E version)) as [e|];
    simpl; [|intuition].
  split; [done|].
  destruct (isContainerRunError e) eqn:Hc; simpl.
  - destruct e; simpl in Hc; try discriminate.
    apply Z.eqb_eq in Hc. subst. intuition.
  - split; [discriminate|]. intros [H|H]; [discriminate|].
    injection H as ->. discriminate.
Qed.

Definition already_running_msg (component : string) : string :=
  "Failed to launch " +:+ component +:+ ". Is it already running?".

(** The exit-status-125 branch of [parseDockerError] is dead for the
    launchers: they filter status 125 out first, so when docker fails only
    with exec errors, neither launcher ever sends the "Is it already
    running?" error. *)
Theorem launchers_never_send_already_running (E : env) (dir version : string) :
  (forall e, run_cmd E "docker" redis_args = Some e -> exec_error e) ->
  (forall e, run_cmd E "docker" (placement_args E version) = Some e -> exec_error e) ->
  (runRedis E dir version).2 <> Some (Errorf (already_running_msg "Redis state store")) /\
  (runPlacementService E dir version).2
    <> Some (Errorf (already_running_msg "placement service")).
Proof.
  intros HR HP.
  unfold runRedis, runPlacementService, runCmd, bind, emit, check, throw, ret.
  split.
  - destruct (run_cmd E "docker" redis_args) as [e|] eqn:Hr; simpl; [|done].
    specialize (HR e eq_refl).
    destruct e as [c| | | |]; simpl in *; try done.
    destruct (Z.eqb c 125) eqn:H125; simpl; [done|].
    destruct (Z.eqb c 127); simpl; [|done].
    intros H. injection H as H. discriminate H.
  - destruct (run_cmd E "docker" (placement_args E version)) as [e|] eqn:Hr;
      simpl; [|done].
    specialize (HP e eq_refl).
    destruct e as [c| | | |]; simpl in *; try done.
    destruct (Z.eqb c 125) eqn:H125; simpl; [done|].
    destruct (Z.eqb c 127); simpl; [|done].
    intros H. injection H as H. discriminate H.
Qed.

Lemma launchers_never_send_already_running_witness :
  (runRedis E_running "/home/u/.actions" "0.3.0").2
    <> Some (Errorf (already_running_msg "Redis state store")).
Proof.
  apply (launchers_never_send_already_running E_running "/home/u/.actions" "0.3.0");
    intros e H; injection H as <-; simpl; exact I.
Defined.

Definition unix_dest (filepath : string) : string :=
  path_Join "/usr/local/bin" (filepath_Base filepath).

(** On Unix [moveFileToPath] copies the file's bytes to
    [/usr/local/bin/<base name>] with mode 0644 and returns that path; when
    the source cannot be read, nothing is written. *)
Theorem moveFileToPath_unix (E : env) (filepath : string) :
  is_windows E = false ->
  (forall e, read_file E filepath = Err e ->
     moveFileToPath E filepath = ([EReadFile filepath], Err e)) /\
  (forall input, read_file E filepath = Ok input ->
     moveFileToPath E filepath =
       ([EReadFile filepath; EWriteFile (unix_dest filepath) input perm_0644],
        match write_file E (unix_dest filepath) input perm_0644 with
        | None => Ok (unix_dest filepath)
        | Some e => Err e
        end)).
Proof.
  intros Hw. unfold moveFileToPath, unix_dest. rewrite Hw.
  unfold bind, emit, ret, throw, check. simpl.
  split; intros ? Hr; rewrite Hr; simpl; [done|].
  destruct (write_file _ _ _ _); reflexivity.
Qed.

Lemma moveFileToPath_unix_witness :
  moveFileToPath E_nodocker "/home/u/.actions/actionsrt" =
    ([EReadFile "/home/u/.actions/actionsrt";
      EWriteFile "/usr/local/bin/actionsrt" [Byte.x7f; Byte.x45] perm_0644],
     Ok "/usr/local/bin/actionsrt").
Proof.
  exact (proj2 (moveFileToPath_unix E_nodocker "/home/u/.actions/actionsrt" eq_refl)
           [Byte.x7f; Byte.x45] eq_refl).
Defined.

(** Effects that touch the file system outside the staging directory:
    reading the extracted binary, writing its copy, changing its mode. *)
Definition relocation_effect (ev : event) : Prop :=
  match ev with
  | EReadFile _ | EWriteFile _ _ _ | EChmod _ _ => True
  | _ => False
  end.

(** On Windows [moveFileToPath] never reads, writes or moves the file it is
    given: its effects and result are the same for every path, and it
    performs no relocation effect, only reading PATH and possibly running
    SETX. *)
Theorem moveFileToPath_windows_ignores_file (E : env) (filepath filepath' : string) :
  is_windows E = true ->
  moveFileToPath E filepath = moveFileToPath E filepath' /\
  Forall (fun ev => ev = EGetenv "PATH" \/ exists args, ev = ERunCmd "SETX" args)
    (moveFileToPath E filepath).1.
Proof.
  intros Hw. unfold moveFileToPath. rewrite Hw. split; [reflexivity|].
  destruct (negb _); simpl; [|repeat constructor; auto].
  unfold runCmd, bind, emit, ret, throw, check. simpl.
  destruct (run_cmd _ _ _); simpl;
    repeat (apply Forall_cons; split); try apply Forall_nil; eauto.
Qed.

Lemma moveFileToPath_windows_ignores_file_witness :
  moveFileToPath E_windows "C:\Users\u\.actions\actionsrt.exe"
    = moveFileToPath E_windows "c:\actions\actionsrt.exe".
Proof.
  exact (proj1 (moveFileToPath_windows_ignores_file E_windows
                  "C:\Users\u\.actions\actionsrt.exe" "c:\actions\actionsrt.exe"
                  eq_refl)).
Defined.

(** [downloadFile] creates the destination only after a successful GET,
    and copies into it only after a successful create. *)
Theorem downloadFile_failures (E : env) (dir url : string) :
  (forall e, http_get E url = Err e ->
     downloadFile E dir url = ([EStat (download_path dir url); EGet url], Err e)) /\
  (forall body e, http_get E url = Ok body ->
     create E (download_path dir url) = Some e ->
     downloadFile E dir url =
       ([EStat (download_path dir url); EGet url; ECreate (download_path dir url)],
        Err e)).
Proof.
  unfold downloadFile, download_path. cbv zeta.
  rewrite os_Stat_never_exists.
  unfold bind, emit, ret, throw, check. simpl.
  split.
  - intros e H. rewrite H. reflexivity.
  - intros body e H1 H2. rewrite H1. simpl. rewrite H2. reflexivity.
Qed.

Definition E_offline : env :=
  {| goos := "linux"; goarch := "amd64"; user_current := Ok "/home/u";
     mkdir_all := fun _ _ => None; run_cmd := fun _ _ => None;
     stat := fun _ => Some SENOENT; http_get := fun _ => Err (NetError "no route to host");
     create := fun _ => None; open_file := fun _ _ => None;
     copy_to := fun _ _ => None; zip_open := fun _ => Ok [];
     getenv := fun _ => ""; read_file := fun _ => Ok [];
     write_file := fun _ _ _ => None; chmod := fun _ _ => None |}.

Lemma downloadFile_failures_witness :
  downloadFile E_offline "/home/u/.actions" (actionsURL E_offline "0.3.0") =
    ([EStat "/home/u/.actions/actionsrt_linux_amd64.zip";
      EGet "https://actionsreleases.blob.core.windows.net/release/0.3.0/actionsrt_linux_amd64.zip"],
     Err (NetError "no route to host")).
Proof.
  exact (proj1 (downloadFile_failures E_offline "/home/u/.actions"
                  (actionsURL E_offline "0.3.0")) _ eq_refl).
Defined.

Lemma downloadFile_ok (E : env) (dir url : string) body :
  http_get E url = Ok body ->
  create E (download_path dir url) = None ->
  copy_to E (download_path dir url) body = None ->
  downloadFile E dir url =
    ([EStat (download_path dir url); EGet url;
      ECreate (download_path dir url); ECopy (download_path dir url) body],
     Ok (download_path dir url)).
Proof.
  intros H1 H2 H3. unfold downloadFile, download_path in *. cbv zeta.
  rewrite os_Stat_never_exists.
  unfold bind, emit, ret, throw, check. simpl.
  rewrite H1. simpl. rewrite H2. simpl. rewrite H3. reflexivity.
Qed.

Lemma extractFile_ok (E : env) (filepath targetDir : string) A rest :
  zip_open E filepath = Ok (A :: rest) ->
  zopen_err A = None ->
  open_file E (path_Join targetDir (zname A)) (zmode A) = None ->
  copy_to E (path_Join targetDir (zname A)) (zdata A) = None ->
  extractFile E filepath targetDir =
    ([EZipOpen filepath; EEntryOpen (zname A);
      EOpenFile (path_Join targetDir (zname A)) (zmode A);
      ECopy (path_Join targetDir (zname A)) (zdata A)],
     Ok (path_Join targetDir (zname A))).
Proof.
  intros Hz H1 H2 H3. unfold extractFile. rewrite Hz.
  unfold bind, emit, ret, throw, check. simpl.
  rewrite H1. simpl. rewrite H2. simpl. rewrite H3. reflexivity.
Qed.

(** On Unix, when every external operation succeeds, [installActionsBinary]
    downloads the archive into the install directory, extracts its first
    entry there, copies it to [/usr/local/bin/<entry base name>] with mode
    0644, makes that copy mode 0777, and sends [nil]. *)
Theorem installActionsBinary_unix_success (E : env) (dir version : string)
    (body : list Byte.byte) (A : zip_entry) (rest : list zip_entry)
    (input : list Byte.byte) :
  is_windows E = false ->
  http_get E (actionsURL E version) = Ok body ->
  create E (download_path dir (actionsURL E version)) = None ->
  copy_to E (download_path dir (actionsURL E version)) body = None ->
  zip_open E (download_path dir (actionsURL E version)) = Ok (A :: rest) ->
  zopen_err A = None ->
  open_file E (path_Join dir (zname A)) (zmode A) = None ->
  copy_to E (path_Join dir (zname A)) (zdata A) = None ->
  read_file E (path_Join dir (zname A)) = Ok input ->
  write_file E (unix_dest (path_Join dir (zname A))) input perm_0644 = None ->
  chmod E (unix_dest (path_Join dir (zname A))) perm_0777 = None ->
  installActionsBinary E dir version =
    ([EStat (download_path dir (actionsURL E version));
      EGet (actionsURL E version);
      ECreate (download_path dir (actionsURL E version));
      ECopy (download_path dir (actionsURL E version)) body;
      EZipOpen (download_path dir (actionsURL E version));
      EEntryOpen (zname A);
      EOpenFile (path_Join dir (zname A)) (zmode A);
      ECopy (path_Join dir (zname A)) (zdata A);
      EReadFile (path_Join dir (zname A));
      EWriteFile (unix_dest (path_Join dir (zname A))) input perm_0644;
      EChmod (unix_dest (path_Join dir (zname A))) perm_0777],
     None).
Proof.
  intros Hw Hg Hc Hcp Hz Ho Hof Hcx Hr Hwr Hch.
  unfold installActionsBinary, install_from_extracted.
  rewrite (downloadFile_ok E dir _ body Hg Hc Hcp). unfold stage at 1.
  rewrite (extractFile_ok E _ dir A rest Hz Ho Hof Hcx). unfold stage at 1.
  assert (Hm : moveFileToPath E (path_Join dir (zname A)) =
     ([EReadFile (path_Join dir (zname A));
       EWriteFile (unix_dest (path_Join dir (zname A))) input perm_0644],
      Ok (unix_dest (path_Join dir (zname A))))).
  { unfold moveFileToPath, unix_dest in *. rewrite Hw.
    unfold bind, emit, ret, throw, check. simpl.
    rewrite Hr. simpl. rewrite Hwr. reflexivity. }
  rewrite Hm. unfold stage at 1.
  assert (Hx : makeExecutable E (unix_dest (path_Join dir (zname A))) =
     ([EChmod (unix_dest (path_Join dir (zname A))) perm_0777], Ok tt)).
  { unfold makeExecutable. rewrite Hw. simpl.
    unfold bind, emit, ret, throw, check. rewrite Hch. reflexivity. }
  rewrite Hx. reflexivity.
Qed.

Lemma installActionsBinary_unix_success_witness :
  installActionsBinary E_nodocker "/home/u/.actions" "0.3.0" =
    ([EStat "/home/u/.actions/actionsrt_linux_amd64.zip";
      EGet "https://actionsreleases.blob.core.windows.net/release/0.3.0/actionsrt_linux_amd64.zip";
      ECreate "/home/u/.actions/actionsrt_linux_amd64.zip";
      ECopy "/home/u/.actions/actionsrt_linux_amd64.zip" [Byte.x50; Byte.x4b];
      EZipOpen "/home/u/.actions/actionsrt_linux_amd64.zip";
      EEntryOpen "actionsrt";
      EOpenFile "/home/u/.actions/actionsrt" 493;
      ECopy "/home/u/.actions/actionsrt" [Byte.x7f; Byte.x45];
      EReadFile "/home/u/.actions/actionsrt";
      EWriteFile "/usr/local/bin/actionsrt" [Byte.x7f; Byte.x45] 420;
      EChmod "/usr/local/bin/actionsrt" 511], None).
Proof.
  exact (installActionsBinary_unix_success E_nodocker "/home/u/.actions" "0.3.0"
           [Byte.x50; Byte.x4b] entryA [entryB] [Byte.x7f; Byte.x45]
           eq_refl eq_refl eq_refl eq_refl eq_refl eq_refl eq_refl eq_refl
           eq_refl eq_refl eq_refl).
Defined.

(** Each stage of [installActionsBinary] that fails stops the pipeline:
    the task sends the stage's error wrapped in that stage's message, and
    no later stage runs (the effects are those of the stages up to the
    failing one). *)
Theorem installActionsBinary_stage_errors (E : env) (dir version : string) :
  (forall t e, downloadFile E dir (actionsURL E version) = (t, Err e) ->
     installActionsBinary E dir version =
       (t, Some (Errorf ("Error downloading actions binary: " +:+ Error e)))) /\
  (forall t fp t' e, downloadFile E dir (actionsURL E version) = (t, Ok fp) ->
     extractFile E fp dir = (t', Err e) ->
     installActionsBinary E dir version =
       (t ++ t', Some (Errorf ("Error extracting actions binary: " +:+ Error e)))) /\
  (forall t fp t' x t'' e, downloadFile E dir (actionsURL E version) = (t, Ok fp) ->
     extractFile E fp dir = (t', Ok x) ->
     moveFileToPath E x = (t'', Err e) ->
     installActionsBinary E dir version =
       (t ++ t' ++ t'',
        Some (Errorf ("Error moving actions binary to path: " +:+ Error e)))) /\
  (forall t fp t' x t'' p t''' e, downloadFile E dir (actionsURL E version) = (t, Ok fp) ->
     extractFile E fp dir = (t', Ok x) ->
     moveFileToPath E x = (t'', Ok p) ->
     makeExecutable E p = (t''', Err e) ->
     installActionsBinary E dir version =
       (t ++ t' ++ t'' ++ t''',
        Some (Errorf ("Error making actions binary executable: " +:+ Error e)))).
Proof.
  unfold installActionsBinary, install_from_extracted.
  split_and!.
  - intros t e Hd. rewrite Hd. reflexivity.
  - intros t fp t' e Hd Hx. rewrite Hd. simpl. rewrite Hx. reflexivity.
  - intros t fp t' x t'' e Hd Hx Hm. rewrite Hd. simpl. rewrite Hx. simpl.
    rewrite Hm. reflexivity.
  - intros t fp t' x t'' p t''' e Hd Hx Hm Hme. rewrite Hd. simpl. rewrite Hx.
    simpl. rewrite Hm. simpl. rewrite Hme. reflexivity.
Qed.

Lemma installActionsBinary_stage_errors_witness :
  installActionsBinary E_offline "/home/u/.actions" "0.3.0" =
    ([EStat "/home/u/.actions/actionsrt_linux_amd64.zip";
      EGet "https://actionsreleases.blob.core.windows.net/release/0.3.0/actionsrt_linux_amd64.zip"],
     Some (Errorf "Error downloading actions binary: no route to host")).
Proof.
  exact (proj1 (installActionsBinary_stage_errors E_offline "/home/u/.actions" "0.3.0")
    [EStat "/home/u/.actions/actionsrt_linux_amd64.zip";
     EGet "https://actionsreleases.blob.core.windows.net/release/0.3.0/actionsrt_linux_amd64.zip"]
    (NetError "no route to host") eq_refl).
Defined.

Lemma Forall_bind {A B} (P : event -> Prop) (m : M A) (k : A -> M B) :
  Forall P m.1 -> (forall a, Forall P (k a).1) -> Forall P (bind m k).1.
Proof.
  destruct m as [t [a|e]]; simpl; [|done].
  intros Ht Hk. specialize (Hk a). destruct (k a) as [t' r]. simpl in *.
  apply Forall_app. done.
Qed.

Lemma Forall_stage {A} (P : event -> Prop) (m : M A) msg (k : A -> task_run) :
  Forall P m.1 -> (forall a, Forall P (k a).1) -> Forall P (stage m msg k).1.
Proof.
  destruct m as [t [a|e]]; simpl; [|done].
  intros Ht Hk. specialize (Hk a). destruct (k a) as [t' r]. simpl in *.
  apply Forall_app. done.
Qed.

Ltac no_effect :=
  repeat first
    [ apply Forall_bind; [|intros ?]
    | progress unfold emit, ret, throw, check
    | progress cbn -[bind]
    | exact I
    | apply Forall_nil
    | apply Forall_cons; split; [simpl; tauto|]
    | case_match ].

Lemma downloadFile_no_relocation (E : env) (dir url : string) :
  Forall (fun ev => ~ relocation_effect ev) (downloadFile E dir url).1.
Proof. unfold downloadFile. no_effect. Qed.

Lemma extractFile_no_relocation (E : env) (filepath dir : string) :
  Forall (fun ev => ~ relocation_effect ev) (extractFile E filepath dir).1.
Proof. unfold extractFile. no_effect. Qed.

Lemma moveFileToPath_windows_effects (E : env) (filepath : string) :
  is_windows E = true ->
  Forall (fun ev => ~ relocation_effect ev) (moveFileToPath E filepath).1.
Proof.
  intros Hw. unfold moveFileToPath, runCmd. rewrite Hw. no_effect.
Qed.

(** On Windows [installActionsBinary] never reads the extracted binary
    back, never writes a copy of it and never changes a file's mode:
    whatever the outcome, its trace has no [ioutil.ReadFile],
    [ioutil.WriteFile] or [os.Chmod] event.  The download and the
    extraction still create and write their files. *)
Theorem installActionsBinary_windows_no_relocation (E : env) (dir version : string) :
  is_windows E = true ->
  Forall (fun ev => ~ relocation_effect ev) (installActionsBinary E dir version).1.
Proof.
  intros Hw. unfold installActionsBinary, install_from_extracted.
  apply Forall_stage; [apply downloadFile_no_relocation|]. intros fp.
  apply Forall_stage; [apply extractFile_no_relocation|]. intros x.
  apply Forall_stage.
  { apply moveFileToPath_windows_effects. done. }
  intros p. apply Forall_stage.
  - unfold makeExecutable. rewrite Hw. simpl. constructor.
  - intros _. constructor.
Qed.

Lemma installActionsBinary_windows_no_relocation_witness :
  is_windows E_windows = true /\
  Forall (fun ev => ~ relocation_effect ev)
    (installActionsBinary E_windows "c:\actions" "0.3.0").1.
Proof.
  split; [reflexivity|].
  exact (installActionsBinary_windows_no_relocation E_windows "c:\actions" "0.3.0"
           eq_refl).
Defined.

(** [getActionsDir] returns a directory only after [os.MkdirAll] created it
    (or found it) with mode 0700: [c:\actions] on Windows, and
    [<home>/.actions] for the current user's home directory elsewhere. *)
Theorem getActionsDir_ok (E : env) (p : string) :
  (getActionsDir E).2 = Ok p ->
  EMkdirAll p perm_0700 ∈ (getActionsDir E).1 /\
  mkdir_all E p perm_0700 = None /\
  (if is_windows E then p = "c:\actions"
   else exists home, user_current E = Ok home /\ p = path_Join home ".actions").
Proof.
  unfold getActionsDir, bind, emit, ret, throw, check.
  destruct (is_windows E); simpl.
  - destruct (mkdir_all E "c:\actions" perm_0700) eqn:Hm; simpl; [discriminate|].
    intros H. injection H as <-. split_and!; [set_solver|done|done].
  - destruct (user_current E) as [home|e]; simpl; [|discriminate].
    destruct (mkdir_all E (path_Join home ".actions") perm_0700) eqn:Hm;
      simpl; [discriminate|].
    intros H. injection H as <-. split_and!; [set_solver|done|eauto].
Qed.

Lemma getActionsDir_ok_witness :
  mkdir_all E_nodocker "/home/u/.actions" perm_0700 = None.
Proof.
  exact (proj1 (proj2 (getActionsDir_ok E_nodocker "/home/u/.actions" eq_refl))).
Defined.

(** [Init] relays errors unchanged and reads at most one value per task:
    an error it returns is [getActionsDir]'s error or exactly the value one
    of the setup tasks sent, and a run never receives more values than
    there are tasks. *)
Theorem Init_relays_task_errors (E : env) (runtimeVersion : string)
    (r : option error) (n : nat) :
  Init E runtimeVersion r n ->
  n <= length initSteps /\
  (forall e, r = Some e ->
     (getActionsDir E).2 = Err e \/
     exists dir f, (getActionsDir E).2 = Ok dir /\ f ∈ initSteps /\
                   (f E dir runtimeVersion).2 = Some e).
Proof.
  unfold Init. destruct ((getActionsDir E).2) as [dir|e0] eqn:Hd.
  - intros (st & Hr & Ho & Hn).
    destruct (inv_reachable _ st Hr) as (Hsnd & _ & Hin & Hlen & _ & Hor).
    split.
    + assert (Hle : forall ts : list (phase * option error), ndone ts <= length ts).
      { induction ts as [|t ts IH]; simpl; [lia|]. unfold dn.
        destruct (t.1); lia. }
      rewrite <- Hn, Hlen.
      transitivity (length (tasks st)); [apply Hle|].
      rewrite <- (length_fmap snd (tasks st)), Hsnd, length_fmap. apply Nat.le_refl.
    + intros e ->. right. exists dir. rewrite Ho in Hor. destruct Hor as [k Hk].
      rewrite Hk in Hin. apply Forall_app in Hin as [_ Hin].
      apply Forall_inv in Hin. apply list_elem_of_fmap in Hin as (f & Hf & Hfin).
      exists f. done.
  - intros [-> ->]. split; [simpl; lia|]. intros e He. left. congruence.
Qed.

Lemma Init_relays_task_errors_witness :
  Init E_nodocker "0.3.0"
    (Some (Errorf (docker_missing_msg "Redis state store"))) 1 /\
  (1 <= length initSteps)%nat.
Proof.
  assert (H : Init E_nodocker "0.3.0"
                (Some (Errorf (docker_missing_msg "Redis state store"))) 1).
  { unfold Init.
    change ((getActionsDir E_nodocker).2) with (@Ok string "/home/u/.actions").
    cbv iota beta. rewrite outcomes_nodocker.
    eexists. split.
    { eapply rtc_l. { apply (step_work 2); reflexivity. }
      eapply rtc_l. { apply (step_recv 2); reflexivity. }
      apply rtc_refl. }
    split; reflexivity. }
  split; [exact H|].
  exact (proj1 (Init_relays_task_errors E_nodocker "0.3.0" _ 1 H)).
Defined.

(** Work left to the tasks: two moves for a working task (finish, then
    send), one for a task blocked on its send. *)
Definition pw (t : phase * option error) : nat :=
  match t.1 with Working => 2 | Sending => 1 | Done => 0 end.

Fixpoint pending (ts : list (phase * option error)) : nat :=
  match ts with
  | [] => 0
  | t :: ts' => pw t + pending ts'
  end.

Lemma pending_insert (ts : list (phase * option error)) i x y :
  ts !! i = Some y -> pending (<[i := x]> ts) + pw y = pending ts + pw x.
Proof.
  revert i. induction ts as [|t ts IH]; intros [|i] H; simpl in *; try done.
  - injection H as ->. lia.
  - specialize (IH i H). lia.
Qed.

Lemma pending_zero (ts : list (phase * option error)) :
  pending ts = 0%nat -> Forall is_done ts.
Proof.
  induction ts as [|[[| |] o] ts IH]; simpl; intros H; try lia; [constructor|].
  constructor; [done|]. auto.
Qed.

Lemma exists_pending (ts : list (phase * option error)) :
  (0 < pending ts)%nat -> exists i p o, ts !! i = Some (p, o) /\ p <> Done.
Proof.
  induction ts as [|[p o] ts IH]; simpl; intros H; [lia|].
  destruct p.
  - exists 0%nat, Working, o. done.
  - exists 0%nat, Sending, o. done.
  - destruct IH as (i & p & o' & Hi & Hp); [unfold pw in H; simpl in H; lia|].
    exists (S i), p, o'. done.
Qed.

(** While the loop is still draining, some schedule makes it return. *)
Lemma drain_returns (n : nat) :
  forall ts c l, (pending ts <= n)%nat ->
  exists st' r, rtc step (mkC ts ODrain c l) st' /\ orch st' = ORet r.
Proof.
  induction n as [|n IH]; intros ts c l Hle.
  all: destruct c; [eexists _, None; split; [apply rtc_once, step_range_end|done]|].
  all: destruct (decide (pending ts = 0%nat)) as [H0|H0];
    [eexists _, None; split;
       [eapply rtc_l; [apply step_close, pending_zero, H0|];
        apply rtc_once, step_range_end|done]|].
  - lia.
  - destruct (exists_pending ts) as (i & p & o & Hi & Hp); [lia|].
    destruct p; [| |done].
    + pose proof (pending_insert ts i (Sending, o) _ Hi) as Hn.
      unfold pw in Hn; simpl in Hn.
      destruct (IH (<[i := (Sending, o)]> ts) false l) as (st' & r & Hr & Ho);
        [lia|].
      exists st', r. split; [|done].
      eapply rtc_l; [apply step_work, Hi|exact Hr].
    + destruct o as [e|].
      * eexists _, (Some e). split; [apply rtc_once, step_recv, Hi|done].
      * pose proof (pending_insert ts i (Done, None) _ Hi) as Hn.
        unfold pw in Hn; simpl in Hn.
        destruct (IH (<[i := (Done, None)]> ts) false (l ++ [None]))
          as (st' & r & Hr & Ho); [lia|].
        exists st', r. split; [|done].
        eapply rtc_l; [apply (step_recv i None _ l Hi)|exact Hr].
Qed.

(** [Init] itself never deadlocks: from any point of any run of the
    tasks of [initSteps], some schedule lets the orchestrator return, and
    that run is a run of [Init]. *)
Theorem Init_can_always_return (E : env) (runtimeVersion dir : string) st :
  (getActionsDir E).2 = Ok dir ->
  rtc step (init_state ((fun f => (f E dir runtimeVersion).2) <$> initSteps)) st ->
  exists st' r, rtc step st st' /\ orch st' = ORet r /\
                Init E runtimeVersion r (length (log st')).
Proof.
  intros Hd Hr.
  assert (Hc : exists st' r, rtc step st st' /\ orch st' = ORet r).
  { destruct st as [ts [|r] c l] eqn:Hst.
    - apply (drain_returns (pending ts)). done.
    - exists st, r. subst st. split; [apply rtc_refl|done]. }
  destruct Hc as (st' & r & Hr' & Ho).
  exists st', r. split_and!; [done|done|].
  unfold Init. rewrite Hd. exists st'. split_and!; [|done|done].
  etrans; [exact Hr|exact Hr'].
Qed.

Lemma Init_can_always_return_witness :
  (getActionsDir E_nodocker).2 = Ok "/home/u/.actions" /\
  exists st' r, rtc step (init_state ((fun f => (f E_nodocker "/home/u/.actions" "0.3.0").2) <$> initSteps)) st' /\
                orch st' = ORet r /\ Init E_nodocker "0.3.0" r (length (log st')).
Proof.
  assert (Hd : (getActionsDir E_nodocker).2 = Ok "/home/u/.actions") by reflexivity.
  split; [exact Hd|].
  exact (Init_can_always_return E_nodocker "0.3.0" "/home/u/.actions" _ Hd (rtc_refl _ _)).
Defined.
